(** * VirtualEngineIO: the input list of the instrument-cluster simulator

    A shallow embedding of [InputList.h]: the report-format macros, the
    enumeration of logical inputs, the descriptor table [hit_descriptor]
    and the fake-analog constants, followed by the properties of the
    table and of the scan-time behaviour the protocol relies on. *)

From Stdlib Require Import ZArith Lia Ascii String.
From stdpp Require Import base decidable list strings.

Open Scope Z_scope.

(** ** Event reporting string formats *)

Module EvFmt.

(** [EVFMT_NEWLINE] is the C literal with the two escapes CR (0x0D) and
    LF (0x0A). *)
Definition CR : ascii := Ascii.ascii_of_nat 13.
Definition LF : ascii := Ascii.ascii_of_nat 10.
Definition EVFMT_NEWLINE : string := String CR (String LF "").

(** The macros paste adjacent string literals.  The parameter [x] of a
    macro stands for the literal [#x], the spelling of the argument once the
    preprocessor has trimmed it and collapsed its white space; for the
    one-token arguments of the table ([0] .. [9], [F], [O], [T]) that is the
    token itself. *)
Definition EVFMT_Icon (x : string) : string := "ICON " +:+ x +:+ EVFMT_NEWLINE.
Definition EVFMT_Icon_PR (x : string) : string :=
  "ICON " +:+ x +:+ " %c" +:+ EVFMT_NEWLINE.
Definition EVFMT_Accelerate : string := "ACCL %c" +:+ EVFMT_NEWLINE.
Definition EVFMT_Brake : string := "BREK %c" +:+ EVFMT_NEWLINE.
Definition EVFMT_Gauge (x : string) : string :=
  "GAUG " +:+ x +:+ " %u" +:+ EVFMT_NEWLINE.
Definition EVFMT_Ignite : string := "IGNT" +:+ EVFMT_NEWLINE.
Definition EVFMT_Hazard : string := "HZRD" +:+ EVFMT_NEWLINE.
Definition EVFMT_Gear : string := "GEAR%s" +:+ EVFMT_NEWLINE.

Definition EVFMT_Gear_Hint1 : string := "".
Definition EVFMT_Gear_Hint2 : string := " L".
Definition EVFMT_Gear_Hint3 : string := " S".

End EvFmt.
Export EvFmt.

(** ** List of all inputs *)

(** The enumerators of the anonymous [enum], in declaration order.
    [HIT_COUNT] is the last enumerator of the C enum; it names no input and
    is kept apart as a number. *)
Inductive hit_input : Set :=
  | HIT_LBLINK | HIT_ENGINE | HIT_OIL | HIT_BRAKEABS | HIT_BATTERY
  | HIT_SEATBELT | HIT_DOOR | HIT_LIGHT | HIT_HANDBRAKE | HIT_RBLINK
  | HIT_ACCEL | HIT_BRAKE
  | HIT_FUELVALUE | HIT_OILVALUE | HIT_TERMOVALUE
  | HIT_IGNITION | HIT_HAZARD_LIGHT
  | HIT_SWITCH_ANALOG
  | HIT_GEAR.

#[global] Instance hit_input_eq_dec : EqDecision hit_input.
Proof. solve_decision. Defined.

(** The integer value C gives each enumerator: [HIT_LBLINK = 0], every
    later one is its predecessor plus one. *)
Definition hit_value (h : hit_input) : nat :=
  match h with
  | HIT_LBLINK => 0 | HIT_ENGINE => 1 | HIT_OIL => 2 | HIT_BRAKEABS => 3
  | HIT_BATTERY => 4 | HIT_SEATBELT => 5 | HIT_DOOR => 6 | HIT_LIGHT => 7
  | HIT_HANDBRAKE => 8 | HIT_RBLINK => 9
  | HIT_ACCEL => 10 | HIT_BRAKE => 11
  | HIT_FUELVALUE => 12 | HIT_OILVALUE => 13 | HIT_TERMOVALUE => 14
  | HIT_IGNITION => 15 | HIT_HAZARD_LIGHT => 16
  | HIT_SWITCH_ANALOG => 17
  | HIT_GEAR => 18
  end%nat.

Definition HIT_COUNT : nat := S (hit_value HIT_GEAR).

Definition all_inputs : list hit_input :=
  [ HIT_LBLINK; HIT_ENGINE; HIT_OIL; HIT_BRAKEABS; HIT_BATTERY;
    HIT_SEATBELT; HIT_DOOR; HIT_LIGHT; HIT_HANDBRAKE; HIT_RBLINK;
    HIT_ACCEL; HIT_BRAKE;
    HIT_FUELVALUE; HIT_OILVALUE; HIT_TERMOVALUE;
    HIT_IGNITION; HIT_HAZARD_LIGHT;
    HIT_SWITCH_ANALOG;
    HIT_GEAR ].

(** Modelled from the spec: the key modes [HIT_MODE_PRESS],
    [HIT_MODE_PRESS_RELEASE], [HIT_MODE_ANALOG] and [HIT_MODE_GEAR] are used
    by the table but declared outside [InputList.h]; the behaviour modes of
    the data model are "one of PRESS, PRESS_RELEASE, ANALOG, GEAR". *)
Inductive HIT_MODE : Set :=
  | HIT_MODE_PRESS
  | HIT_MODE_PRESS_RELEASE
  | HIT_MODE_ANALOG
  | HIT_MODE_GEAR.

#[global] Instance HIT_MODE_eq_dec : EqDecision HIT_MODE.
Proof. solve_decision. Defined.

(** Modelled from the spec: the glossary sorts the behaviour modes into the
    edge-triggered press modes, "PRESS (edge-triggered momentary),
    PRESS_RELEASE (edge-triggered with explicit release)", and the value
    modes ANALOG and GEAR. *)
Definition press_variant (m : HIT_MODE) : bool :=
  match m with
  | HIT_MODE_PRESS | HIT_MODE_PRESS_RELEASE => true
  | HIT_MODE_ANALOG | HIT_MODE_GEAR => false
  end.

(** Modelled from the spec: the struct [HIT_DESCRIPTOR] is declared outside
    [InputList.h]; its three columns are, in the order of the initialisers,
    "Input Index (Analog/Digital), Report Format, Key Mode", which the data
    model calls [sourceLocator], [reportTemplate] and [mode].  The width of
    the index field is declared with the struct; the index is kept as the
    integer the initialiser denotes, which is the stored value whenever the
    flag fits the field. *)
Record HIT_DESCRIPTOR : Set := Descriptor {
  sourceLocator : Z;
  reportTemplate : string;
  mode : HIT_MODE;
}.

(** Fake analogs *)
Definition FAKE_ANALOG_COUNT : nat := 3.
Definition FAKE_ANALOG_REAL_PIN : Z := 0.

Section Table.

(** The flag [HIT_INDEX_FAKED] is or-ed into the input index of the three
    gauges; its value is defined outside [InputList.h]. *)
Variable HIT_INDEX_FAKED : Z.

Definition hit_descriptor : list HIT_DESCRIPTOR :=
  [ Descriptor 22 (EVFMT_Icon "0") HIT_MODE_PRESS;
    Descriptor 24 (EVFMT_Icon "1") HIT_MODE_PRESS;
    Descriptor 26 (EVFMT_Icon "2") HIT_MODE_PRESS;
    Descriptor 28 (EVFMT_Icon "3") HIT_MODE_PRESS;
    Descriptor 30 (EVFMT_Icon "4") HIT_MODE_PRESS;
    Descriptor 32 (EVFMT_Icon "5") HIT_MODE_PRESS;
    Descriptor 34 (EVFMT_Icon "6") HIT_MODE_PRESS;
    Descriptor 36 (EVFMT_Icon_PR "7") HIT_MODE_PRESS_RELEASE;
    Descriptor 38 (EVFMT_Icon "8") HIT_MODE_PRESS;
    Descriptor 40 (EVFMT_Icon "9") HIT_MODE_PRESS;

    Descriptor 10 EVFMT_Accelerate HIT_MODE_PRESS_RELEASE;
    Descriptor 9 EVFMT_Brake HIT_MODE_PRESS_RELEASE;

    Descriptor (Z.lor 0 HIT_INDEX_FAKED) (EVFMT_Gauge "F") HIT_MODE_ANALOG;
    Descriptor (Z.lor 1 HIT_INDEX_FAKED) (EVFMT_Gauge "O") HIT_MODE_ANALOG;
    Descriptor (Z.lor 2 HIT_INDEX_FAKED) (EVFMT_Gauge "T") HIT_MODE_ANALOG;

    Descriptor 12 EVFMT_Ignite HIT_MODE_PRESS;
    Descriptor 11 EVFMT_Hazard HIT_MODE_PRESS;

    Descriptor 8 "" HIT_MODE_PRESS_RELEASE;

    Descriptor 52 EVFMT_Gear HIT_MODE_GEAR ].

(** [hit_descriptor[h]]: the row of a logical input.  The filler stands
    for a read past the initialisers, which no enumerator performs
    (lemma [descriptor_of_lookup]). *)
Definition filler_descriptor : HIT_DESCRIPTOR := Descriptor 0 "" HIT_MODE_PRESS.

Definition descriptor_of (h : hit_input) : HIT_DESCRIPTOR :=
  default filler_descriptor (hit_descriptor !! hit_value h).

End Table.

(** ** Reading a source locator *)

(** Modelled from the spec: the code that takes an input index apart is
    outside [InputList.h].  The data model describes the locator as a tagged
    union, "a physical pin number, OR a fake-source index flagged distinctly
    from real pin numbers"; the table builds the second kind as
    [index | HIT_INDEX_FAKED], so a locator is a fake source when it shares a
    bit with the flag, and its index is what remains once the flag is
    cleared. *)
Inductive source : Set :=
  | RealPin (n : Z)
  | FakeSource (index : Z).

#[global] Instance source_eq_dec : EqDecision source.
Proof. solve_decision. Defined.

Definition is_faked (HIT_INDEX_FAKED loc : Z) : bool :=
  negb (Z.land loc HIT_INDEX_FAKED =? 0).

Definition locate (HIT_INDEX_FAKED loc : Z) : source :=
  if is_faked HIT_INDEX_FAKED loc
  then FakeSource (Z.ldiff loc HIT_INDEX_FAKED)
  else RealPin loc.

(** A usable flag is not zero and shares no bit with the numbers 0..63,
    which hold every pin and index of the table. *)
Definition flag_clear_of_pins (HIT_INDEX_FAKED : Z) : Prop :=
  HIT_INDEX_FAKED ≠ 0 ∧ Z.land HIT_INDEX_FAKED 63 = 0.

(** ** Shapes of report templates *)

(** [ends_with suf s]: [suf] is the tail of [s]. *)
Fixpoint ends_with (suf s : string) : bool :=
  if String.eqb s suf then true
  else match s with
       | EmptyString => false
       | String _ s' => ends_with suf s'
       end.

Definition crlf_terminated (s : string) : Prop :=
  ∃ body : string, s = body +:+ EVFMT_NEWLINE.

(** [occurrences pat s]: the number of positions of [s] at which [pat]
    starts. *)
Fixpoint occurrences (pat s : string) : nat :=
  match s with
  | EmptyString => 0%nat
  | String _ s' =>
      ((if String.prefix pat s then 1 else 0) + occurrences pat s')%nat
  end.

(** A placeholder is a conversion of the printf kind: a percent sign and the
    letter after it. *)
Definition placeholders (s : string) : nat := occurrences "%" s.

(** What a key mode lets a template carry. *)
Definition template_fits_mode (m : HIT_MODE) (t : string) : Prop :=
  match m with
  | HIT_MODE_PRESS => placeholders t = 0%nat
  | HIT_MODE_ANALOG => placeholders t = 1%nat ∧ occurrences "%u" t = 1%nat
  | HIT_MODE_GEAR => placeholders t = 1%nat ∧ occurrences "%s" t = 1%nat
  | HIT_MODE_PRESS_RELEASE =>
      t = "" ∨ (placeholders t = 1%nat ∧ occurrences "%c" t = 1%nat)
  end.

(** ** The wire protocol *)

Module Wire.

Definition crlf : string := String "013" (String "010" "").

(** The line formats of the protocol, per logical input, as the protocol
    lists them: the ten icons (icon 7 with a press/release character),
    the pedals, the three gauges, ignition, hazard and gear.  The protocol
    has no line for switching the potentiometer target. *)
Definition line_format (h : hit_input) : option string :=
  match h with
  | HIT_LBLINK => Some ("ICON 0" +:+ crlf)
  | HIT_ENGINE => Some ("ICON 1" +:+ crlf)
  | HIT_OIL => Some ("ICON 2" +:+ crlf)
  | HIT_BRAKEABS => Some ("ICON 3" +:+ crlf)
  | HIT_BATTERY => Some ("ICON 4" +:+ crlf)
  | HIT_SEATBELT => Some ("ICON 5" +:+ crlf)
  | HIT_DOOR => Some ("ICON 6" +:+ crlf)
  | HIT_LIGHT => Some ("ICON 7 %c" +:+ crlf)
  | HIT_HANDBRAKE => Some ("ICON 8" +:+ crlf)
  | HIT_RBLINK => Some ("ICON 9" +:+ crlf)
  | HIT_ACCEL => Some ("ACCL %c" +:+ crlf)
  | HIT_BRAKE => Some ("BREK %c" +:+ crlf)
  | HIT_FUELVALUE => Some ("GAUG F %u" +:+ crlf)
  | HIT_OILVALUE => Some ("GAUG O %u" +:+ crlf)
  | HIT_TERMOVALUE => Some ("GAUG T %u" +:+ crlf)
  | HIT_IGNITION => Some ("IGNT" +:+ crlf)
  | HIT_HAZARD_LIGHT => Some ("HZRD" +:+ crlf)
  | HIT_SWITCH_ANALOG => None
  | HIT_GEAR => Some ("GEAR%s" +:+ crlf)
  end.

(** The three gear lines of the protocol. *)
Definition gear_lines : list string :=
  [ "GEAR" +:+ crlf; "GEAR L" +:+ crlf; "GEAR S" +:+ crlf ].

End Wire.

(** ** Event formatter *)

(** Modelled from the spec: the formatting routine is outside
    [InputList.h].  "Substitutes at most one payload field into the
    template's single placeholder, if present.  Templates with no
    placeholder ignore any payload."  The line terminator is already the
    tail of every macro's literal, so the text after the placeholder is
    copied as it stands. *)
Fixpoint format (template payload : string) : string :=
  match template with
  | EmptyString => EmptyString
  | String c rest =>
      if Ascii.eqb c "%" then
        match rest with
        | EmptyString => String c EmptyString
        | String _ rest' => payload +:+ rest'
        end
      else String c (format rest payload)
  end.

Definition gear_hints : list string :=
  [ EVFMT_Gear_Hint1; EVFMT_Gear_Hint2; EVFMT_Gear_Hint3 ].

Definition gear_report (hint : string) : string := format EVFMT_Gear hint.

(** ** Mode state machine: PRESS *)

Module Press.

(** Modelled from the spec: the scan loop and its per-mode handlers are
    outside [InputList.h].  PRESS has the states idle and pressed, held
    here as the last raw value.  "On raw transition false→true: move
    idle→pressed, emit report.  On true→false: move pressed→idle, no
    emit.  Re-entering pressed while already pressed: no emit."  The
    report is the descriptor's template, which has no payload. *)
Definition step (d : HIT_DESCRIPTOR) (lastRawValue raw : bool)
  : bool * list string :=
  (raw, if raw && negb lastRawValue then [reportTemplate d] else []).

(** One sample per scan cycle; the reports of all cycles in order. *)
Fixpoint scan (d : HIT_DESCRIPTOR) (lastRawValue : bool) (samples : list bool)
  : bool * list string :=
  match samples with
  | [] => (lastRawValue, [])
  | raw :: samples' =>
      let '(st, out) := step d lastRawValue raw in
      let '(st', out') := scan d st samples' in
      (st', out ++ out')
  end.

Definition reports (d : HIT_DESCRIPTOR) (lastRawValue : bool)
  (samples : list bool) : list string :=
  (scan d lastRawValue samples).2.

(** The false→true transitions of a sample sequence. *)
Fixpoint rising_edges (lastRawValue : bool) (samples : list bool) : nat :=
  match samples with
  | [] => 0%nat
  | raw :: samples' =>
      ((if raw && negb lastRawValue then 1 else 0)
       + rising_edges raw samples')%nat
  end.

End Press.

(** ** Fake analog sources *)

Module Fake.

(** Modelled from the spec: the fake-analog runtime is outside
    [InputList.h], which only fixes [FAKE_ANALOG_COUNT] and
    [FAKE_ANALOG_REAL_PIN].  The binding is "a selector register
    indicating which fake source currently owns the real pin's live
    reading; the other fake sources hold their last-known (frozen)
    value". *)
Record FakeAnalogBinding : Set := Binding {
  selector : nat;
  lastRawValue : list Z;
}.

(** Modelled from the spec: "if index is the currently-live fake source,
    returns a freshly quantized analog reading from the shared real pin;
    otherwise returns the frozen last value recorded for that index". *)
Definition sample (b : FakeAnalogBinding) (index : nat) (reading : Z) : Z :=
  if decide (index = selector b) then reading
  else lastRawValue b !!! index.

(** A scan cycle of one fake source: the sampled value is reported and
    kept as the source's last raw value. *)
Definition scan (b : FakeAnalogBinding) (index : nat) (reading : Z)
  : Z * FakeAnalogBinding :=
  let v := sample b index reading in
  (v, Binding (selector b) (<[index := v]> (lastRawValue b))).

(** Modelled from the spec: a SWITCH_ANALOG trigger advances "the
    fake-source liveness selector modulo FAKE_ANALOG_COUNT"; the source
    that was live keeps its last raw value. *)
Definition switch_analog (b : FakeAnalogBinding) : FakeAnalogBinding :=
  Binding ((selector b + 1) `mod` FAKE_ANALOG_COUNT)%nat (lastRawValue b).

(** What can happen to the binding during scanning: a fake source is
    scanned while the real pin reads [reading], or the switch triggers. *)
Inductive event : Set :=
  | Scan (index : nat) (reading : Z)
  | Switch.




(** The values reported by the scans among the events, each with the index
    of the fake source scanned, in order. *)
Fixpoint reported (b : FakeAnalogBinding) (evs : list event) : list (nat * Z) :=
  match evs with
  | [] => []
  | Scan index reading :: evs' =>
      (index, (scan b index reading).1)
        :: reported (scan b index reading).2 evs'
  | Switch :: evs' => reported (switch_analog b) evs'
  end.


End Fake.

(** ** The potentiometer switch *)

Module Switch.

(** Modelled from the spec: the handler of the SWITCH_ANALOG input is
    outside [InputList.h].  The input "is handled as a variant of PRESS
    (edge-triggered) whose side effect is advancing the fake-source liveness
    selector modulo FAKE_ANALOG_COUNT, rather than emitting a protocol
    report": on a raw transition false→true the selector advances, on any
    other sample nothing happens. *)
Definition step (b : Fake.FakeAnalogBinding) (lastRawValue raw : bool)
  : bool * Fake.FakeAnalogBinding :=
  (raw, if raw && negb lastRawValue then Fake.switch_analog b else b).

(** One sample of the switch per scan cycle. *)
Fixpoint scan (b : Fake.FakeAnalogBinding) (lastRawValue : bool)
  (samples : list bool) : bool * Fake.FakeAnalogBinding :=
  match samples with
  | [] => (lastRawValue, b)
  | raw :: samples' =>
      let '(st, b') := step b lastRawValue raw in scan b' st samples'
  end.

End Switch.

(** ** Macro arguments *)

(** The spelling [#x] of a one-digit macro argument, as in [EVFMT_Icon(7)]. *)
Definition digit_token (n : nat) : string :=
  String (Ascii.ascii_of_nat (48 + n)) "".

(** The icon macro a row of the table uses: the press/release form for
    [HIT_LIGHT], the press form for the other icons. *)
Definition icon_macro (h : hit_input) : string → string :=
  if decide (h = HIT_LIGHT) then EVFMT_Icon_PR else EVFMT_Icon.

(** * Properties *)

(** ** The table and the enumeration *)

Lemma descriptor_of_lookup (faked : Z) (h : hit_input) :
  hit_descriptor faked !! hit_value h = Some (descriptor_of faked h).
Proof. by destruct h. Qed.

Lemma all_inputs_complete (h : hit_input) : h ∈ all_inputs.
Proof. apply list_elem_of_In. destruct h; simpl; tauto. Qed.

Lemma hit_value_positions : hit_value <$> all_inputs = seq 0 HIT_COUNT.
Proof. reflexivity. Qed.

Lemma hit_value_lt (h : hit_input) : (hit_value h < HIT_COUNT)%nat.
Proof. destruct h; cbv; lia. Qed.

Lemma hit_value_inj : Inj (=) (=) hit_value.
Proof. intros h1 h2; destruct h1, h2; simpl; congruence. Qed.

Lemma hit_value_surj (i : nat) :
  (i < HIT_COUNT)%nat → ∃ h, hit_value h = i.
Proof.
  intros Hi.
  assert (Hin : i ∈ hit_value <$> all_inputs).
  { rewrite hit_value_positions. apply elem_of_seq. lia. }
  apply list_elem_of_fmap in Hin as (h & -> & _). by exists h.
Qed.

Lemma hit_descriptor_length (faked : Z) :
  length (hit_descriptor faked) = HIT_COUNT.
Proof. reflexivity. Qed.

(** Every row is the row of an enumerator. *)
Lemma descriptor_rows (faked : Z) :
  hit_descriptor faked = descriptor_of faked <$> all_inputs.
Proof. reflexivity. Qed.

Lemma elem_of_hit_descriptor (faked : Z) (d : HIT_DESCRIPTOR) :
  d ∈ hit_descriptor faked ↔ ∃ h, d = descriptor_of faked h.
Proof.
  rewrite descriptor_rows, list_elem_of_fmap. split.
  - intros (h & -> & _). by exists h.
  - intros (h & ->). exists h. split; [done | apply all_inputs_complete].
Qed.

(** ** Template shapes *)

Lemma ends_with_sound (suf s : string) :
  ends_with suf s = true → ∃ body, s = body +:+ suf.
Proof.
  induction s as [|c s IH]; cbn [ends_with].
  - destruct suf; [|done]. intros _. by exists "".
  - destruct (String.eqb_spec (String c s) suf) as [<-|].
    + intros _. by exists "".
    + intros [body ->]%IH. by exists (String c body).
Qed.

Lemma empty_not_crlf_terminated : ¬ crlf_terminated "".
Proof. intros [body H]. by destruct body. Qed.

Lemma wire_crlf : Wire.crlf = EVFMT_NEWLINE.
Proof. reflexivity. Qed.

(** ** Line terminators *)

(** C2, as stated, fails: no table has all its templates ending in CR LF,
    since the template of [HIT_SWITCH_ANALOG] is empty. *)
Lemma not_all_templates_crlf_terminated :
  ¬ ∃ faked : Z,
      Forall (λ d, crlf_terminated (reportTemplate d)) (hit_descriptor faked).
Proof.
  intros [faked Hall].
  rewrite Forall_forall in Hall.
  apply empty_not_crlf_terminated.
  apply (Hall (descriptor_of faked HIT_SWITCH_ANALOG)).
  apply elem_of_hit_descriptor. by eexists.
Qed.

(** C2 (amended): every template of the table is either empty or ends with
    the two bytes CR (0x0D), LF (0x0A), and the only row with an empty
    template is that of [HIT_SWITCH_ANALOG]. *)
Theorem templates_crlf_terminated (faked : Z) :
  Forall (λ d, reportTemplate d = "" ∨ crlf_terminated (reportTemplate d))
         (hit_descriptor faked)
  ∧ ∀ h : hit_input,
      (reportTemplate (descriptor_of faked h) = "" ↔ h = HIT_SWITCH_ANALOG)
      ∧ (h ≠ HIT_SWITCH_ANALOG →
         crlf_terminated (reportTemplate (descriptor_of faked h))
         ∧ ends_with (String "013" (String "010" "")) 
                     (reportTemplate (descriptor_of faked h)) = true).
Proof.
  split.
  - rewrite Forall_forall. intros d [h ->]%elem_of_hit_descriptor.
    destruct h; first [by left | right; by apply ends_with_sound].
  - intros h. split; [split|].
    + by destruct h.
    + by intros ->.
    + intros Hh. destruct h; try done; (split; [by apply ends_with_sound|done]).
Qed.

(** ** Templates and the wire protocol *)

(** C3: for every logical input the compiled-in template is the line format
    the wire protocol gives for it: "ICON n" for the icons other than 7,
    "ICON 7 %c", "ACCL %c", "BREK %c", "GAUG F %u", "GAUG O %u", "GAUG T %u",
    "IGNT", "HZRD" and "GEAR%s", each followed by CR LF.  The one input the
    protocol has no line for is [HIT_SWITCH_ANALOG]. *)
Theorem templates_match_wire_protocol (faked : Z) (h : hit_input) :
  match Wire.line_format h with
  | Some line => reportTemplate (descriptor_of faked h) = line
  | None => h = HIT_SWITCH_ANALOG
  end.
Proof. by destruct h. Qed.

(** ** Key modes and placeholders *)

(** C9: in every row the key mode fixes the placeholder of the template:
    none under [HIT_MODE_PRESS], exactly one "%u" under [HIT_MODE_ANALOG],
    exactly one "%s" under [HIT_MODE_GEAR], and under
    [HIT_MODE_PRESS_RELEASE] either an empty template or exactly one "%c";
    no template has more than one placeholder. *)
Theorem mode_determines_placeholder (faked : Z) :
  Forall (λ d, template_fits_mode (mode d) (reportTemplate d)
               ∧ (placeholders (reportTemplate d) ≤ 1)%nat)
         (hit_descriptor faked).
Proof.
  rewrite Forall_forall. intros d [h ->]%elem_of_hit_descriptor.
  destruct h; cbv; intuition lia.
Qed.

(** ** Flagged and unflagged locators *)

Section Flag.

Variable faked : Z.
Hypothesis Hflag : flag_clear_of_pins faked.

(** The flag has none of the six low bits. *)
Lemma flag_low_bits (k : Z) : 0 ≤ k < 6 → Z.testbit faked k = false.
Proof using Hflag.
  intros Hk. destruct Hflag as [_ Hlow].
  assert (Hbit : Z.testbit (Z.land faked 63) k = false)
    by (rewrite Hlow; apply Z.bits_0).
  rewrite Z.land_spec in Hbit.
  change 63 with (Z.ones 6) in Hbit.
  rewrite Z.ones_spec_low in Hbit by lia.
  by rewrite andb_true_r in Hbit.
Qed.

(** A number below 64 has only low bits. *)
Lemma small_high_bits (n k : Z) : 0 ≤ n < 64 → 6 ≤ k → Z.testbit n k = false.
Proof.
  intros Hn Hk.
  destruct (decide (n = 0)) as [->|Hn0]; [apply Z.bits_0|].
  apply Z.bits_above_log2; [lia|].
  assert (Z.log2 n < 6); [|lia].
  apply Z.log2_lt_pow2; lia.
Qed.

Lemma small_land_flag (n : Z) : 0 ≤ n < 64 → Z.land n faked = 0.
Proof using Hflag.
  intros Hn. apply Z.bits_inj'. intros k Hk.
  rewrite Z.land_spec, Z.bits_0.
  destruct (decide (k < 6)).
  - rewrite flag_low_bits by lia. apply andb_false_r.
  - by rewrite (small_high_bits n k) by lia.
Qed.

Lemma flagged_land_flag (i : Z) : 0 ≤ i < 64 → Z.land (Z.lor i faked) faked = faked.
Proof using Hflag.
  intros Hi.
  rewrite Z.land_lor_distr_l, small_land_flag, Z.land_diag by done.
  apply Z.lor_0_l.
Qed.

Lemma flagged_ldiff_flag (i : Z) : 0 ≤ i < 64 → Z.ldiff (Z.lor i faked) faked = i.
Proof using Hflag.
  intros Hi. apply Z.bits_inj'. intros k Hk.
  rewrite Z.ldiff_spec, Z.lor_spec.
  destruct (decide (k < 6)).
  - rewrite flag_low_bits by lia. simpl.
    by rewrite orb_false_r, andb_true_r.
  - rewrite (small_high_bits i k) by lia. simpl.
    apply andb_negb_r.
Qed.

Lemma locate_pin (n : Z) : 0 ≤ n < 64 → locate faked n = RealPin n.
Proof using Hflag.
  intros Hn. unfold locate, is_faked. by rewrite small_land_flag.
Qed.

Lemma locate_flagged (i : Z) :
  0 ≤ i < 64 → locate faked (Z.lor i faked) = FakeSource i.
Proof using Hflag.
  intros Hi. unfold locate, is_faked.
  rewrite flagged_land_flag, flagged_ldiff_flag by done.
  destruct Hflag as [Hne _]. by apply Z.eqb_neq in Hne as ->.
Qed.

(** The sources of the table, row by row. *)
Lemma located_rows :
  locate faked ∘ sourceLocator <$> hit_descriptor faked =
  [ RealPin 22; RealPin 24; RealPin 26; RealPin 28; RealPin 30;
    RealPin 32; RealPin 34; RealPin 36; RealPin 38; RealPin 40;
    RealPin 10; RealPin 9;
    FakeSource 0; FakeSource 1; FakeSource 2;
    RealPin 12; RealPin 11;
    RealPin 8;
    RealPin 52 ].
Proof using Hflag.
  unfold hit_descriptor. cbn [fmap list_fmap compose sourceLocator].
  repeat (f_equal; [first [apply locate_flagged; lia | apply locate_pin; lia]|]).
  f_equal. apply locate_pin. lia.
Qed.

Lemma located_row (h : hit_input) :
  locate faked (sourceLocator (descriptor_of faked h)) =
  match h with
  | HIT_FUELVALUE => FakeSource 0
  | HIT_OILVALUE => FakeSource 1
  | HIT_TERMOVALUE => FakeSource 2
  | _ => RealPin (sourceLocator (descriptor_of faked h))
  end.
Proof using Hflag.
  destruct h; first [apply locate_flagged; lia | apply locate_pin; cbn; lia].
Qed.

Lemma source_locators_NoDup : NoDup (sourceLocator <$> hit_descriptor faked).
Proof using Hflag.
  apply (NoDup_fmap_1 (locate faked)).
  rewrite <- list_fmap_compose, located_rows.
  apply (bool_decide_unpack _). by vm_compute.
Qed.

End Flag.

Lemma flag_128_clear_of_pins : flag_clear_of_pins 128.
Proof. by split. Defined.

Lemma is_faked_row (faked : Z) (h : hit_input) :
  flag_clear_of_pins faked →
  is_faked faked (sourceLocator (descriptor_of faked h)) =
  match h with
  | HIT_FUELVALUE | HIT_OILVALUE | HIT_TERMOVALUE => true
  | _ => false
  end.
Proof.
  intros Hflag. pose proof (located_row faked Hflag h) as Hloc.
  unfold locate in Hloc.
  destruct (is_faked faked _); destruct h; done.
Qed.

(** ** Indexing of the table *)

(** C4: the table has [HIT_COUNT] rows, the enumerators index exactly the
    positions 0..HIT_COUNT-1, and no two rows share a source locator, a
    flagged fake index being different from every pin number (the flag
    shares no bit with them). *)
Theorem descriptor_table_indexing (faked : Z) :
  flag_clear_of_pins faked →
  length (hit_descriptor faked) = HIT_COUNT
  ∧ (∀ h : hit_input,
       (hit_value h < HIT_COUNT)%nat
       ∧ hit_descriptor faked !! hit_value h = Some (descriptor_of faked h))
  ∧ (∀ i : nat, (i < HIT_COUNT)%nat → ∃ h : hit_input, hit_value h = i)
  ∧ NoDup (sourceLocator <$> hit_descriptor faked)
  ∧ (∀ h1 h2 : hit_input,
       sourceLocator (descriptor_of faked h1)
       = sourceLocator (descriptor_of faked h2) → h1 = h2).
Proof.
  intros Hflag.
  pose proof (source_locators_NoDup faked Hflag) as Hnd.
  split; [apply hit_descriptor_length|].
  split; [intros h; split; [apply hit_value_lt | apply descriptor_of_lookup]|].
  split; [apply hit_value_surj|].
  split; [done|].
  intros h1 h2 Heq. apply hit_value_inj.
  eapply (NoDup_lookup _ _ _ _ Hnd);
    rewrite list_lookup_fmap, descriptor_of_lookup; simpl; [done|].
  by rewrite Heq.
Qed.

Lemma descriptor_table_indexing_witness :
  flag_clear_of_pins 128
  ∧ length (hit_descriptor 128) = HIT_COUNT
  ∧ NoDup (sourceLocator <$> hit_descriptor 128).
Proof.
  split; [by split|].
  pose proof (descriptor_table_indexing 128) as H.
  destruct H as (Hlen & _ & _ & Hnd & _); [by split|].
  by split.
Defined.

(** C8: every enumerator has a row and every row belongs to exactly one
    enumerator; the fake-source indices of the flagged locators are 0, 1
    and 2, all below [FAKE_ANALOG_COUNT]. *)
Theorem rows_and_fake_indices (faked : Z) :
  flag_clear_of_pins faked →
  (∀ h : hit_input, is_Some (hit_descriptor faked !! hit_value h))
  ∧ (∀ i : nat, is_Some (hit_descriptor faked !! i) → exists! h : hit_input, hit_value h = i)
  ∧ (∀ (d : HIT_DESCRIPTOR) (index : Z),
       d ∈ hit_descriptor faked →
       locate faked (sourceLocator d) = FakeSource index →
       0 ≤ index < Z.of_nat FAKE_ANALOG_COUNT)
  ∧ (∀ index : Z,
       0 ≤ index < Z.of_nat FAKE_ANALOG_COUNT →
       ∃ d, d ∈ hit_descriptor faked
            ∧ locate faked (sourceLocator d) = FakeSource index).
Proof.
  intros Hflag. split; [|split; [|split]].
  - intros h. rewrite descriptor_of_lookup. by eexists.
  - intros i Hi%lookup_lt_is_Some. rewrite hit_descriptor_length in Hi.
    destruct (hit_value_surj i Hi) as [h Hh]. exists h.
    split; [done|]. intros h' Hh'. apply hit_value_inj. congruence.
  - intros d index [h ->]%elem_of_hit_descriptor Hloc.
    rewrite (located_row faked Hflag h) in Hloc.
    destruct h; inversion Hloc; cbv; done.
  - intros index [H0 H3]. unfold FAKE_ANALOG_COUNT in H3.
    assert (index = 0 ∨ index = 1 ∨ index = 2) as [->|[->| ->]] by lia.
    + exists (descriptor_of faked HIT_FUELVALUE).
      split; [apply elem_of_hit_descriptor; by eexists|].
      by rewrite located_row.
    + exists (descriptor_of faked HIT_OILVALUE).
      split; [apply elem_of_hit_descriptor; by eexists|].
      by rewrite located_row.
    + exists (descriptor_of faked HIT_TERMOVALUE).
      split; [apply elem_of_hit_descriptor; by eexists|].
      by rewrite located_row.
Qed.

Lemma rows_and_fake_indices_witness :
  flag_clear_of_pins 128
  ∧ (∀ (d : HIT_DESCRIPTOR) (index : Z),
       d ∈ hit_descriptor 128 →
       locate 128 (sourceLocator d) = FakeSource index →
       0 ≤ index < Z.of_nat FAKE_ANALOG_COUNT).
Proof.
  split; [by split|].
  pose proof (rows_and_fake_indices 128) as H.
  destruct H as (_ & _ & Hidx & _); [by split|].
  exact Hidx.
Defined.

(** ** Which rows are fake sources *)

(** C10: a row's locator carries the flag exactly when its key mode is
    [HIT_MODE_ANALOG], which is the case for the three gauges
    [HIT_FUELVALUE], [HIT_OILVALUE], [HIT_TERMOVALUE] and no other input;
    and the pin number of an unflagged row is never
    [FAKE_ANALOG_REAL_PIN]. *)
Theorem faked_iff_analog (faked : Z) (h : hit_input) :
  flag_clear_of_pins faked →
  (is_faked faked (sourceLocator (descriptor_of faked h)) = true
   ↔ mode (descriptor_of faked h) = HIT_MODE_ANALOG)
  ∧ (mode (descriptor_of faked h) = HIT_MODE_ANALOG
     ↔ h ∈ [HIT_FUELVALUE; HIT_OILVALUE; HIT_TERMOVALUE])
  ∧ (∀ n : Z,
       locate faked (sourceLocator (descriptor_of faked h)) = RealPin n →
       n ≠ FAKE_ANALOG_REAL_PIN).
Proof.
  intros Hflag.
  rewrite (is_faked_row faked h Hflag), (located_row faked Hflag h).
  rewrite list_elem_of_In.
  destruct h; cbn; (split; [|split]);
    try (intros n [= <-]; done); try done; intuition congruence.
Qed.

Lemma faked_iff_analog_witness :
  flag_clear_of_pins 128
  ∧ (is_faked 128 (sourceLocator (descriptor_of 128 HIT_OILVALUE)) = true
     ↔ mode (descriptor_of 128 HIT_OILVALUE) = HIT_MODE_ANALOG).
Proof.
  split; [by split|].
  pose proof (faked_iff_analog 128 HIT_OILVALUE) as H.
  destruct H as (Hiff & _); [by split|].
  exact Hiff.
Defined.

(** ** Gear reports *)

(** C6: putting the three gear hints into the gear template gives the
    protocol lines "GEAR", "GEAR L" and "GEAR S", each followed by CR LF,
    and a line can be produced from a hint only if it is one of these. *)
Theorem gear_reports_are_the_gear_lines (faked : Z) :
  reportTemplate (descriptor_of faked HIT_GEAR) = EVFMT_Gear
  ∧ format EVFMT_Gear EVFMT_Gear_Hint1 = "GEAR" +:+ Wire.crlf
  ∧ format EVFMT_Gear EVFMT_Gear_Hint2 = "GEAR L" +:+ Wire.crlf
  ∧ format EVFMT_Gear EVFMT_Gear_Hint3 = "GEAR S" +:+ Wire.crlf
  ∧ ∀ line : string,
      (∃ hint, hint ∈ gear_hints
               ∧ line = format (reportTemplate (descriptor_of faked HIT_GEAR)) hint)
      ↔ line ∈ Wire.gear_lines.
Proof.
  do 4 (split; [reflexivity|]).
  intros line. rewrite list_elem_of_In. split.
  - intros (hint & Hin%list_elem_of_In & ->).
    destruct Hin as [<-|[<-|[<-|[]]]]; cbn; tauto.
  - intros [<-|[<-|[<-|[]]]].
    + exists EVFMT_Gear_Hint1. split; [|done]. apply list_elem_of_In. cbn. tauto.
    + exists EVFMT_Gear_Hint2. split; [|done]. apply list_elem_of_In. cbn. tauto.
    + exists EVFMT_Gear_Hint3. split; [|done]. apply list_elem_of_In. cbn. tauto.
Qed.

(** ** PRESS mode *)

Lemma press_reports_cons d last raw samples :
  Press.reports d last (raw :: samples) =
  (Press.step d last raw).2 ++ Press.reports d raw samples.
Proof.
  unfold Press.reports. cbn [Press.scan Press.step].
  by destruct (Press.scan d raw samples).
Qed.

Lemma press_reports_count d samples : ∀ last,
  Press.reports d last samples =
  replicate (Press.rising_edges last samples) (reportTemplate d).
Proof.
  induction samples as [|raw samples IH]; intros last; [done|].
  rewrite press_reports_cons, IH. cbn [Press.rising_edges Press.step snd].
  by destruct (raw && negb last).
Qed.

Lemma rising_edges_released (m : nat) : ∀ last,
  Press.rising_edges last (replicate m false) = 0%nat.
Proof. induction m as [|m IH]; intros last; [done|]. cbn. apply IH. Qed.

Lemma rising_edges_held (n : nat) (samples : list bool) :
  Press.rising_edges true (replicate n true ++ samples) =
  Press.rising_edges true samples.
Proof. induction n as [|n IH]; [done|]. cbn. apply IH. Qed.

Lemma press_row_template (faked : Z) (d : HIT_DESCRIPTOR) :
  d ∈ hit_descriptor faked → mode d = HIT_MODE_PRESS →
  placeholders (reportTemplate d) = 0%nat ∧ crlf_terminated (reportTemplate d).
Proof.
  intros [h ->]%elem_of_hit_descriptor Hmode.
  destruct h; try discriminate Hmode;
    (split; [reflexivity | by apply ends_with_sound]).
Qed.

(** C5: for every PRESS-mode row and every sequence of scan cycles, a
    sampled false-to-true transition produces exactly one report, the
    true-to-false transition after it produces none, and holding the value
    true over further cycles produces none: the reports of a sequence are
    one copy of the row's payload-free line per rising edge. *)
Theorem press_reports_on_rising_edges_only (faked : Z) (d : HIT_DESCRIPTOR) :
  d ∈ hit_descriptor faked →
  mode d = HIT_MODE_PRESS →
  Press.step d false true = (true, [reportTemplate d])
  ∧ Press.step d true false = (false, [])
  ∧ Press.step d true true = (true, [])
  ∧ (∀ n : nat, Press.reports d true (replicate n true) = [])
  ∧ (∀ n m : nat,
       Press.reports d false
         (true :: replicate n true ++ false :: replicate m false)
       = [reportTemplate d])
  ∧ (∀ (last : bool) (samples : list bool),
       Press.reports d last samples
       = replicate (Press.rising_edges last samples) (reportTemplate d))
  ∧ placeholders (reportTemplate d) = 0%nat
  ∧ crlf_terminated (reportTemplate d).
Proof.
  intros Hd Hmode. do 3 (split; [reflexivity|]).
  split; [|split; [|split]].
  - intros n. rewrite press_reports_count.
    rewrite <- (app_nil_r (replicate n true)), rising_edges_held. done.
  - intros n m. rewrite press_reports_count.
    cbn [Press.rising_edges andb negb].
    rewrite rising_edges_held. cbn [Press.rising_edges andb negb].
    by rewrite rising_edges_released.
  - intros last samples. apply press_reports_count.
  - by apply (press_row_template faked).
Qed.

Lemma press_reports_on_rising_edges_only_witness :
  descriptor_of 128 HIT_IGNITION ∈ hit_descriptor 128
  ∧ mode (descriptor_of 128 HIT_IGNITION) = HIT_MODE_PRESS
  ∧ Press.reports (descriptor_of 128 HIT_IGNITION) false
      [true; true; true; false; false]
    = [EVFMT_Ignite].
Proof.
  assert (Hin : descriptor_of 128 HIT_IGNITION ∈ hit_descriptor 128).
  { apply list_elem_of_In. vm_compute. tauto. }
  split; [exact Hin|]. split; [reflexivity|].
  pose proof (press_reports_on_rising_edges_only 128
                (descriptor_of 128 HIT_IGNITION) Hin eq_refl) as H.
  destruct H as (_ & _ & _ & _ & Hrun & _).
  exact (Hrun 2%nat 1%nat).
Defined.

(** ** Switching the fake analog sources *)

Section FakeSwitching.

Import Fake.







End FakeSwitching.



(** The scans of the frozen source in the run above report 512 although the
    pin reads 7 and 8; the live source 2 reports the pin. *)
Example reported_run :
  Fake.reported (Fake.scan (Fake.Binding 1 [10; 20; 30]) 1 512).2
    [Fake.Switch; Fake.Scan 1 7; Fake.Scan 2 99; Fake.Switch; Fake.Scan 1 8]
  = [(1%nat, 512); (2%nat, 99); (1%nat, 512)].
Proof. reflexivity. Qed.

(** ** The potentiometer switch *)

Lemma switch_scan_triggers (samples : list bool) :
  ∀ (b : Fake.FakeAnalogBinding) (last : bool),
    (Switch.scan b last samples).2
    = Nat.iter (Press.rising_edges last samples) Fake.switch_analog b.
Proof.
  induction samples as [|raw samples IH]; intros b last; [done|].
  cbn [Switch.scan Switch.step Press.rising_edges]. rewrite IH.
  destruct (raw && negb last); [|done].
  by rewrite Nat.iter_succ_r.
Qed.

(** C1: the SWITCH_ANALOG input is handled as an edge-triggered variant of
    PRESS and its report template is the empty string.  Its row has an
    edge-triggered press mode ([HIT_MODE_PRESS_RELEASE]) and the template
    "", and its handler acts on transitions only: over any sequence of
    samples the selector is switched once per false-to-true transition, so
    a press switches once however long it is held, and the release after
    it does not switch. *)
Theorem switch_analog_edge_triggered (faked : Z) :
  press_variant (mode (descriptor_of faked HIT_SWITCH_ANALOG)) = true
  ∧ mode (descriptor_of faked HIT_SWITCH_ANALOG) = HIT_MODE_PRESS_RELEASE
  ∧ reportTemplate (descriptor_of faked HIT_SWITCH_ANALOG) = ""
  ∧ (∀ (b : Fake.FakeAnalogBinding) (last : bool) (samples : list bool),
       (Switch.scan b last samples).2
       = Nat.iter (Press.rising_edges last samples) Fake.switch_analog b)
  ∧ (∀ (b : Fake.FakeAnalogBinding) (level : bool) (n : nat),
       (Switch.scan b level (replicate n level)).2 = b)
  ∧ (∀ (b : Fake.FakeAnalogBinding) (n m : nat),
       (Switch.scan b false
          (true :: replicate n true ++ false :: replicate m false)).2
       = Fake.switch_analog b).
Proof.
  do 3 (split; [reflexivity|]).
  split; [|split].
  - intros b last samples. apply switch_scan_triggers.
  - intros b level n. rewrite switch_scan_triggers.
    destruct level.
    + rewrite <- (app_nil_r (replicate n true)), rising_edges_held. done.
    + by rewrite rising_edges_released.
  - intros b n m. rewrite switch_scan_triggers.
    cbn [Press.rising_edges andb negb].
    rewrite rising_edges_held. cbn [Press.rising_edges andb negb].
    by rewrite rising_edges_released.
Qed.


(** * Further properties of the input list *)

(** ** Strings *)

Lemma string_app_cons (c : ascii) (s1 s2 : string) :
  String c s1 +:+ s2 = String c (s1 +:+ s2).
Proof. reflexivity. Qed.

Lemma string_prefix_nil (s : string) : String.prefix "" s = true.
Proof. by destruct s. Qed.

(** A text without percent sign adds no occurrence of a pattern that starts
    with one. *)
Lemma occurrences_skip (pat s1 s2 : string) :
  placeholders s1 = 0%nat →
  occurrences (String "%" pat) (s1 +:+ s2) = occurrences (String "%" pat) s2.
Proof.
  unfold placeholders. induction s1 as [|c s1 IH]; [done|].
  rewrite string_app_cons. cbn [occurrences String.prefix].
  destruct (ascii_dec "%" c) as [<-|Hc].
  - rewrite string_prefix_nil. lia.
  - intros Hs1%IH. by rewrite Hs1.
Qed.

Lemma placeholders_skip (s1 s2 : string) :
  placeholders s1 = 0%nat → placeholders (s1 +:+ s2) = placeholders s2.
Proof. apply (occurrences_skip ""). Qed.

(** Occurrences of a single character add up over concatenation. *)
Lemma occurrences_char_app (c : ascii) (s1 s2 : string) :
  occurrences (String c "") (s1 +:+ s2)
  = (occurrences (String c "") s1 + occurrences (String c "") s2)%nat.
Proof.
  induction s1 as [|a s1 IH]; [done|].
  rewrite string_app_cons. cbn [occurrences String.prefix]. rewrite IH.
  rewrite !string_prefix_nil. destruct (ascii_dec c a); lia.
Qed.

Lemma string_app_assoc (s1 s2 s3 : string) :
  (s1 +:+ s2) +:+ s3 = s1 +:+ (s2 +:+ s3).
Proof.
  induction s1 as [|c s1 IH]; [done|].
  rewrite !string_app_cons. by f_equal.
Qed.

(** ** The report-format macros, for any argument *)

(** Counts over the fixed text of a macro are evaluated; the count over the
    argument stays symbolic. *)
Ltac count_fixed_text x :=
  rewrite ?occurrences_char_app;
  repeat match goal with
         | |- context [occurrences ?p x] =>
             generalize (occurrences p x); intro
         end;
  repeat match goal with
         | |- context [occurrences ?p ?s] =>
             let v := eval vm_compute in (occurrences p s) in
             progress change (occurrences p s) with v
         end;
  lia.

(** The three macros with an argument all put it between a fixed head and a
    fixed tail. *)
Lemma macro_shapes (x : string) :
  EVFMT_Icon x = "ICON " +:+ (x +:+ EVFMT_NEWLINE)
  ∧ EVFMT_Icon_PR x = "ICON " +:+ (x +:+ (" %c" +:+ EVFMT_NEWLINE))
  ∧ EVFMT_Gauge x = "GAUG " +:+ (x +:+ (" %u" +:+ EVFMT_NEWLINE)).
Proof. done. Qed.

(** Whatever the argument, a macro with an argument adds to it no
    placeholder ([EVFMT_Icon]) or exactly one ([EVFMT_Icon_PR],
    [EVFMT_Gauge]), adds exactly one line feed, and ends the template with
    CR LF. *)
Theorem macro_templates_shape (x : string) :
  placeholders (EVFMT_Icon x) = placeholders x
  ∧ placeholders (EVFMT_Icon_PR x) = S (placeholders x)
  ∧ placeholders (EVFMT_Gauge x) = S (placeholders x)
  ∧ occurrences (String LF "") (EVFMT_Icon x) = S (occurrences (String LF "") x)
  ∧ occurrences (String LF "") (EVFMT_Icon_PR x)
    = S (occurrences (String LF "") x)
  ∧ occurrences (String LF "") (EVFMT_Gauge x)
    = S (occurrences (String LF "") x)
  ∧ crlf_terminated (EVFMT_Icon x)
  ∧ crlf_terminated (EVFMT_Icon_PR x)
  ∧ crlf_terminated (EVFMT_Gauge x).
Proof.
  destruct (macro_shapes x) as (-> & -> & ->).
  unfold placeholders, crlf_terminated.
  do 6 (split; [count_fixed_text x|]).
  split; [|split].
  - exists ("ICON " +:+ x). by rewrite string_app_assoc.
  - exists ("ICON " +:+ x +:+ " %c"). by rewrite !string_app_assoc.
  - exists ("GAUG " +:+ x +:+ " %u"). by rewrite !string_app_assoc.
Qed.

(** An argument without percent sign gives each macro the template its key
    mode asks for: [EVFMT_Icon] a PRESS template, [EVFMT_Icon_PR] a
    PRESS_RELEASE template with one "%c", [EVFMT_Gauge] an ANALOG template
    with one "%u". *)
Theorem macro_templates_fit_modes (x : string) :
  placeholders x = 0%nat →
  template_fits_mode HIT_MODE_PRESS (EVFMT_Icon x)
  ∧ template_fits_mode HIT_MODE_PRESS_RELEASE (EVFMT_Icon_PR x)
  ∧ EVFMT_Icon_PR x ≠ ""
  ∧ template_fits_mode HIT_MODE_ANALOG (EVFMT_Gauge x).
Proof.
  intros Hx. destruct (macro_shapes x) as (Hicon & Hpr & Hgauge).
  assert (Hicon_head : placeholders "ICON " = 0%nat) by done.
  assert (Hgaug_head : placeholders "GAUG " = 0%nat) by done.
  split; [|split; [|split]]; cbn [template_fits_mode].
  - rewrite Hicon.
    rewrite (placeholders_skip "ICON "), (placeholders_skip x) by done.
    by vm_compute.
  - right. rewrite Hpr. split.
    + rewrite (placeholders_skip "ICON "), (placeholders_skip x) by done.
      by vm_compute.
    + rewrite (occurrences_skip _ "ICON "), (occurrences_skip _ x) by done.
      by vm_compute.
  - rewrite Hpr. discriminate.
  - rewrite Hgauge. split.
    + rewrite (placeholders_skip "GAUG "), (placeholders_skip x) by done.
      by vm_compute.
    + rewrite (occurrences_skip _ "GAUG "), (occurrences_skip _ x) by done.
      by vm_compute.
Qed.

Lemma macro_templates_fit_modes_witness :
  placeholders "7" = 0%nat
  ∧ template_fits_mode HIT_MODE_PRESS_RELEASE (EVFMT_Icon_PR "7").
Proof.
  split; [reflexivity|].
  exact (proj1 (proj2 (macro_templates_fit_modes "7" eq_refl))).
Defined.

(** No report template of the table is longer than 11 characters, and the
    longest ones, those with a placeholder after a one-letter argument, have
    exactly 11. *)
Theorem table_template_lengths (faked : Z) :
  Forall (λ d, (String.length (reportTemplate d) ≤ 11)%nat)
         (hit_descriptor faked)
  ∧ ∀ h : hit_input,
      String.length (reportTemplate (descriptor_of faked h)) = 11%nat
      ↔ h ∈ [HIT_LIGHT; HIT_FUELVALUE; HIT_OILVALUE; HIT_TERMOVALUE].
Proof.
  split.
  - rewrite Forall_forall. intros d [h ->]%elem_of_hit_descriptor.
    destruct h; vm_compute; lia.
  - intros h. rewrite list_elem_of_In.
    destruct h; vm_compute; intuition congruence.
Qed.

(** ** More on the table *)

(** No two logical inputs share a report template, so a report line tells
    which input produced it. *)
Theorem report_templates_distinct (faked : Z) (h1 h2 : hit_input) :
  reportTemplate (descriptor_of faked h1) = reportTemplate (descriptor_of faked h2)
  → h1 = h2.
Proof.
  intros Heq. apply hit_value_inj.
  assert (Hnd : NoDup (reportTemplate <$> hit_descriptor faked))
    by (apply (bool_decide_unpack _); by vm_compute).
  eapply (NoDup_lookup _ _ _ _ Hnd);
    rewrite list_lookup_fmap, descriptor_of_lookup; simpl; [done|].
  by rewrite Heq.
Qed.

Lemma report_templates_distinct_witness :
  reportTemplate (descriptor_of 128 HIT_OIL) = reportTemplate (descriptor_of 128 HIT_OIL)
  ∧ HIT_OIL = HIT_OIL.
Proof.
  split; [reflexivity|].
  exact (report_templates_distinct 128 HIT_OIL HIT_OIL eq_refl).
Defined.

(** The ten icon rows are regular: the input with enumerator value n below
    10 is wired to pin 22 + 2n and reports "ICON n", in press/release form
    for [HIT_LIGHT] (icon 7) and in press form for the others. *)
Theorem icon_rows_regular (faked : Z) (h : hit_input) :
  (hit_value h < 10)%nat →
  sourceLocator (descriptor_of faked h) = 22 + 2 * Z.of_nat (hit_value h)
  ∧ reportTemplate (descriptor_of faked h)
    = icon_macro h (digit_token (hit_value h))
  ∧ mode (descriptor_of faked h)
    = (if decide (h = HIT_LIGHT) then HIT_MODE_PRESS_RELEASE else HIT_MODE_PRESS).
Proof.
  intros Hh. destruct h; cbn in Hh; try lia; by vm_compute.
Qed.

Lemma icon_rows_regular_witness :
  (hit_value HIT_LIGHT < 10)%nat
  ∧ sourceLocator (descriptor_of 128 HIT_LIGHT) = 36
  ∧ reportTemplate (descriptor_of 128 HIT_LIGHT) = EVFMT_Icon_PR "7".
Proof.
  assert (Hlt : (hit_value HIT_LIGHT < 10)%nat) by (cbv; lia).
  split; [exact Hlt|].
  destruct (icon_rows_regular 128 HIT_LIGHT Hlt) as (Hpin & Htemplate & _).
  split; [exact Hpin | exact Htemplate].
Defined.

(** ** What the table asks of the flag *)

Lemma lor_absorbed (faked : Z) (n : Z) :
  0 ≤ n → Z.testbit faked n = true → Z.lor (2 ^ n) faked = faked.
Proof.
  intros Hn Hbit. apply Z.bits_inj'. intros k Hk.
  rewrite Z.lor_spec, Z.pow2_bits_eqb by done.
  destruct (Z.eqb_spec n k) as [->|]; [by rewrite Hbit|done].
Qed.

Lemma low_bits_of_flag (faked : Z) :
  Z.land faked 3 ≠ 0 → Z.testbit faked 0 = true ∨ Z.testbit faked 1 = true.
Proof.
  intros Hne.
  destruct (Z.testbit faked 0) eqn:H0; [by left|].
  destruct (Z.testbit faked 1) eqn:H1; [by right|].
  exfalso. apply Hne. apply Z.bits_inj'. intros k Hk.
  rewrite Z.land_spec, Z.bits_0.
  change 3 with (Z.ones 2).
  destruct (decide (k < 2)).
  - assert (k = 0 ∨ k = 1) as [->| ->] by lia; by rewrite ?H0, ?H1.
  - rewrite Z.ones_spec_high by lia. apply andb_false_r.
Qed.

(** A flag with bit 0 or bit 1 set cannot tell the gauges apart: two of
    the three flagged locators coincide, so the locators of the table are
    not all different. *)
Theorem flag_low_bits_merge_gauges (faked : Z) :
  Z.land faked 3 ≠ 0 →
  (sourceLocator (descriptor_of faked HIT_FUELVALUE)
   = sourceLocator (descriptor_of faked HIT_OILVALUE)
   ∨ sourceLocator (descriptor_of faked HIT_FUELVALUE)
     = sourceLocator (descriptor_of faked HIT_TERMOVALUE))
  ∧ ¬ NoDup (sourceLocator <$> hit_descriptor faked).
Proof.
  intros Hlow.
  assert (Hsame :
    sourceLocator (descriptor_of faked HIT_FUELVALUE)
    = sourceLocator (descriptor_of faked HIT_OILVALUE)
    ∨ sourceLocator (descriptor_of faked HIT_FUELVALUE)
      = sourceLocator (descriptor_of faked HIT_TERMOVALUE)).
  { change (Z.lor 0 faked = Z.lor (2 ^ 0) faked
            ∨ Z.lor 0 faked = Z.lor (2 ^ 1) faked).
    rewrite Z.lor_0_l.
    destruct (low_bits_of_flag faked Hlow) as [Hbit|Hbit];
      [left|right]; by rewrite lor_absorbed. }
  split; [exact Hsame|].
  intros Hnd.
  destruct Hsame as [Heq|Heq].
  - change (Z.lor 0 faked = Z.lor 1 faked) in Heq.
    assert (Hpos : (12 = 13)%nat); [|lia].
    apply (NoDup_lookup _ _ _ (Z.lor 0 faked) Hnd); [reflexivity|].
    rewrite Heq. reflexivity.
  - change (Z.lor 0 faked = Z.lor 2 faked) in Heq.
    assert (Hpos : (12 = 14)%nat); [|lia].
    apply (NoDup_lookup _ _ _ (Z.lor 0 faked) Hnd); [reflexivity|].
    rewrite Heq. reflexivity.
Qed.

Lemma flag_low_bits_merge_gauges_witness :
  Z.land 1 3 ≠ 0 ∧ ¬ NoDup (sourceLocator <$> hit_descriptor 1).
Proof.
  assert (Hlow : Z.land 1 3 ≠ 0) by (vm_compute; discriminate).
  split; [exact Hlow|].
  exact (proj2 (flag_low_bits_merge_gauges 1 Hlow)).
Defined.

Lemma lor_flag_add (faked i : Z) :
  flag_clear_of_pins faked → 0 ≤ i < 64 → Z.lor i faked = faked + i.
Proof.
  intros Hflag Hi.
  pose proof (small_land_flag faked Hflag i Hi) as Hdisjoint.
  rewrite <- (Z.lxor_lor _ _ Hdisjoint), <- (Z.add_nocarry_lxor _ _ Hdisjoint).
  lia.
Qed.

(** Under a flag that is clear of the pin numbers, the locator of a gauge
    is the flag plus the gauge's position after [HIT_FUELVALUE] in the
    enumeration, and clearing the flag gives that position back. *)
Theorem gauge_locator_round_trip (faked : Z) (h : hit_input) :
  flag_clear_of_pins faked →
  mode (descriptor_of faked h) = HIT_MODE_ANALOG →
  sourceLocator (descriptor_of faked h)
  = faked + (Z.of_nat (hit_value h) - Z.of_nat (hit_value HIT_FUELVALUE))
  ∧ Z.ldiff (sourceLocator (descriptor_of faked h)) faked
    = Z.of_nat (hit_value h) - Z.of_nat (hit_value HIT_FUELVALUE)
  ∧ Z.land (sourceLocator (descriptor_of faked h)) faked = faked
  ∧ 0 ≤ Z.of_nat (hit_value h) - Z.of_nat (hit_value HIT_FUELVALUE)
    < Z.of_nat FAKE_ANALOG_COUNT.
Proof.
  intros Hflag Hmode.
  destruct h; try discriminate Hmode;
    (split; [apply (lor_flag_add faked _ Hflag); by vm_compute|];
     split; [apply (flagged_ldiff_flag faked Hflag); by vm_compute|];
     split; [apply (flagged_land_flag faked Hflag); by vm_compute|];
     by vm_compute).
Qed.

Lemma gauge_locator_round_trip_witness :
  flag_clear_of_pins 128
  ∧ mode (descriptor_of 128 HIT_TERMOVALUE) = HIT_MODE_ANALOG
  ∧ sourceLocator (descriptor_of 128 HIT_TERMOVALUE) = 130
  ∧ Z.ldiff (sourceLocator (descriptor_of 128 HIT_TERMOVALUE)) 128 = 2.
Proof.
  split; [by split|]. split; [reflexivity|].
  destruct (gauge_locator_round_trip 128 HIT_TERMOVALUE) as (Hadd & Hdiff & _);
    [by split | reflexivity |].
  split; [exact Hadd | exact Hdiff].
Defined.

(** ** From a template back to its key mode *)

(** The key mode of a row can be read off its template alone: a "%u" means
    [HIT_MODE_ANALOG], a "%s" means [HIT_MODE_GEAR], a "%c" or an empty
    template means [HIT_MODE_PRESS_RELEASE], and a non-empty template
    without placeholder means [HIT_MODE_PRESS]. *)
Theorem template_determines_mode (faked : Z) (h : hit_input) :
  let d := descriptor_of faked h in
  (mode d = HIT_MODE_ANALOG ↔ occurrences "%u" (reportTemplate d) = 1%nat)
  ∧ (mode d = HIT_MODE_GEAR ↔ occurrences "%s" (reportTemplate d) = 1%nat)
  ∧ (mode d = HIT_MODE_PRESS_RELEASE
     ↔ reportTemplate d = "" ∨ occurrences "%c" (reportTemplate d) = 1%nat)
  ∧ (mode d = HIT_MODE_PRESS
     ↔ reportTemplate d ≠ "" ∧ placeholders (reportTemplate d) = 0%nat).
Proof.
  destruct h; vm_compute; repeat split; intros;
    repeat match goal with
           | H : _ ∧ _ |- _ => destruct H
           | H : _ ∨ _ |- _ => destruct H
           end;
    try discriminate; try congruence; auto.
Qed.
